(** * image-blobber: the scaling policy of [scaleBase64] and its host plumbing

    A shallow embedding of [src/index.ts].  JavaScript numbers are IEEE 754
    binary64 values, so they are modelled by Rocq's primitive floats; optional
    properties ([height?: number]) are [option]s; a promise is modelled by
    the state it finally reaches; the host (image decoder, file reader,
    canvas) is a record of functions, and every call into it is logged. *)

From Stdlib Require Import Bool List String ZArith Lia.
From Stdlib Require Import Floats.
Import ListNotations.

Local Open Scope string_scope.
Local Open Scope float_scope.

(** ** JavaScript values *)

Module Js.

(** [number]: a binary64 float. *)
Definition number := float.

(** ToBoolean on a number: [+0], [-0] and [NaN] are falsy. *)
Definition truthy (x : number) : bool :=
  negb ((x =? 0) || PrimFloat.is_nan x).

(** [x > y]. *)
Definition gt (x y : number) : bool := y <? x.

(** [a || b] where [a] is an optional number ([undefined] is falsy). *)
Definition or_else (a : option number) (b : number) : number :=
  match a with
  | Some x => if truthy x then x else b
  | None => b
  end.

(** Truthiness of [a && c] where [a] is an optional number and [c] a
    boolean that is only evaluated when [a] is truthy. *)
Definition and_then (a : option number) (c : number -> bool) : bool :=
  match a with
  | Some x => if truthy x then c x else false
  | None => false
  end.

(** [p === false] on an optional boolean. *)
Definition is_false (p : option bool) : bool :=
  match p with Some false => true | _ => false end.

(** [typeof a === "number"]. *)
Definition is_number (a : option number) : bool :=
  match a with Some _ => true | None => false end.

(** What a call does on its own turn: it returns or it throws. *)
Inductive completion (A : Type) : Type :=
| Return (a : A)
| Throw (message : string).
Arguments Return {A} a.
Arguments Throw {A} message.

(** An event object handed to a handler by the host. *)
Record Event : Type := mkEvent { event_type : string; event_target : string }.

(** What a promise is rejected with. *)
Inductive reason : Type :=
| ReasonEvent (e : Event)
| ReasonError (message : string).

(** A promise, by the state it finally reaches. *)
Inductive promise (A : Type) : Type :=
| Pending
| Resolved (a : A)
| Rejected (r : reason).
Arguments Pending {A}.
Arguments Resolved {A} a.
Arguments Rejected {A} r.

End Js.
Import Js.

(** ** The interfaces of [index.ts] *)

Record Dimensions : Type := mkDimensions { height : number; width : number }.

Record BlobData : Type := mkBlobData { base64 : string; dimensions : Dimensions }.

Record BlobDetails : Type := mkBlobDetails {
  details_base64 : string;
  details_dimensions : Dimensions;
  filename : string
}.

Record ScaleOptions : Type := mkScaleOptions {
  opt_height : option number;
  opt_width : option number;
  preserveRatio : option bool
}.

(** ** The host *)

Record HTMLImageElement : Type := mkImage {
  src : string;
  naturalHeight : number;
  naturalWidth : number
}.

Record File : Type := mkFile { name : string; contents : string }.

(** [input.files] is a [FileList] or [null]. *)
Record HTMLInputElement : Type := mkInput { files : option (list File) }.

(** The event an [Image] ends with once its [src] is set. *)
Inductive ImageEvent : Type :=
| ImageLoad (image : HTMLImageElement)
| ImageAbort (e : Event)
| ImageError (e : Event).

(** The event a [FileReader] ends with after [readAsDataURL]. *)
Inductive ReaderEvent : Type :=
| ReaderLoad (result : string)
| ReaderAbort (e : Event)
| ReaderError (e : Event).

(** One [drawImage] call: source, source rectangle, destination rectangle. *)
Record DrawImage : Type := mkDrawImage {
  drawn : HTMLImageElement;
  sx : number; sy : number; sWidth : number; sHeight : number;
  dx : number; dy : number; dWidth : number; dHeight : number
}.

Record Canvas : Type := mkCanvas {
  canvas_height : number;
  canvas_width : number;
  canvas_drawn : list DrawImage
}.

Record Host : Type := mkHost {
  image_event : string -> ImageEvent;
  reader_event : File -> ReaderEvent;
  has_context2d : bool;
  toDataURL : Canvas -> string
}.

(** Calls into the host, in the order they are made. *)
Inductive HostCall : Type :=
| SetImageSrc (data : string)
| ReadAsDataURL (f : File)
| CreateCanvas
| GetContext
| DrawImageCall (d : DrawImage)
| ToDataURL.

(** A computation with its log of host calls. *)
Definition Eff (A : Type) : Type := (A * list HostCall)%type.

Definition ret {A} (a : A) : Eff A := (a, []).
Definition tell (c : HostCall) : Eff unit := (tt, [c]).
Definition bind {A B} (m : Eff A) (k : A -> Eff B) : Eff B :=
  let (a, l1) := m in let (b, l2) := k a in (b, (l1 ++ l2)%list).

Notation "x <- m ;; k" := (bind m (fun x => k))
  (at level 61, m at next level, right associativity).
Notation "m ;;; k" := (bind m (fun _ => k))
  (at level 61, right associativity).

(** [p.then(f)]: [f] runs only when [p] resolves; when [f] throws, the
    derived promise is rejected with the thrown error; a rejection of [p]
    passes through as it is. *)
Definition then_ {A B} (p : Eff (promise A)) (f : A -> Eff (completion B))
  : Eff (promise B) :=
  s <- p ;;
  match s with
  | Pending => ret Pending
  | Rejected r => ret (Rejected r)
  | Resolved a =>
      c <- f a ;;
      ret (match c with
           | Return b => Resolved b
           | Throw msg => Rejected (ReasonError msg)
           end)
  end.

(** ** [getImageData] *)

Record ImageData : Type := mkImageData {
  data_dimensions : Dimensions;
  data_image : HTMLImageElement
}.

(** [onload] resolves, [onabort] rejects with the event; no other handler
    is installed, so any other event leaves the promise pending. *)
Definition getImageData (host : Host) (base64 : string) : Eff (promise ImageData) :=
  tell (SetImageSrc base64) ;;;
  ret (match image_event host base64 with
       | ImageLoad image =>
           let dimensions :=
             {| height := naturalHeight image; width := naturalWidth image |} in
           Resolved {| data_dimensions := dimensions; data_image := image |}
       | ImageAbort event => Rejected (ReasonEvent event)
       | ImageError _ => Pending
       end).

(** ** [getFileBlobs] *)

(** The array iterator behind [[...list]]: index from 0 while it is below
    the length. *)
Fixpoint spread_from {A} (l : list A) (index fuel : nat) : list A :=
  match fuel with
  | O => []
  | S fuel' =>
      match nth_error l index with
      | Some x => x :: spread_from l (S index) fuel'
      | None => []
      end
  end.

Definition spread {A} (l : list A) : list A := spread_from l 0 (List.length l).

(** [input.files || []] *)
Definition entries (input : HTMLInputElement) : list File :=
  match files input with Some l => l | None => [] end.

Definition getFileBlobs (input : HTMLInputElement) : promise (list File) :=
  let files := spread (entries input) in
  Resolved files.

(** ** [getBase64] *)

(** [resolve(output)] with [output] a promise makes the returned promise
    follow [output]; [onabort] of the reader rejects with its event, and no
    other reader handler is installed. *)
Definition getBase64 (host : Host) (file : File) : Eff (promise BlobDetails) :=
  tell (ReadAsDataURL file) ;;;
  match reader_event host file with
  | ReaderLoad base64 =>
      then_ (getImageData host base64) (fun imageData =>
        let details :=
          {| details_base64 := base64;
             filename := name file;
             details_dimensions := data_dimensions imageData |} in
        ret (Return details))
  | ReaderAbort err => ret (Rejected (ReasonEvent err))
  | ReaderError _ => ret Pending
  end.

(** ** [scaleBase64] *)

Definition invalid_options_message : string :=
  "scaleBase64() did not receive valid scaling options. options.height or options.width must be a number.".

Definition no_context_message : string :=
  "image-blobber package failed to get canvas context.".

(** [const scaleDown = (options.height && fullDimensions.height > options.height)
    || (options.width && fullDimensions.width > options.width)], by its
    truthiness, which is all [!scaleDown] looks at. *)
Definition scaleDown (options : ScaleOptions) (fullDimensions : Dimensions) : bool :=
  and_then (opt_height options) (fun h => gt (height fullDimensions) h)
  || and_then (opt_width options) (fun w => gt (width fullDimensions) w).

Definition largerDimension (fullDimensions : Dimensions) : number :=
  if gt (height fullDimensions) (width fullDimensions)
  then height fullDimensions else width fullDimensions.

Definition percentage (options : ScaleOptions) (fullDimensions : Dimensions) : number :=
  let chosenHeight := or_else (opt_height options) 0 in
  let chosenWidth := or_else (opt_width options) 0 in
  if gt chosenHeight 0 && gt chosenWidth 0 then
    (* Scale the largest dimension *)
    let dimension :=
      if gt (height fullDimensions) (width fullDimensions)
      then chosenHeight else chosenWidth in
    dimension / largerDimension fullDimensions
  else if gt chosenHeight 0 then chosenHeight / largerDimension fullDimensions
  else if gt chosenWidth 0 then chosenWidth / largerDimension fullDimensions
  else 1.

(** The sizing part of the [then] callback: either the early [return result]
    of the branch that needs no scaling, or the dimensions to render at. *)
Definition sizing (base64 : string) (options : ScaleOptions) (fullDimensions : Dimensions)
  : BlobData + Dimensions :=
  let dimensions :=
    {| height := height fullDimensions; width := width fullDimensions |} in
  if is_false (preserveRatio options) then
    inr {| height := or_else (opt_height options) (height dimensions);
           width := or_else (opt_width options) (width dimensions) |}
  else if negb (scaleDown options fullDimensions) then
    inl {| base64 := base64; dimensions := dimensions |}
  else
    inr {| height := height fullDimensions * percentage options fullDimensions;
           width := width fullDimensions * percentage options fullDimensions |}.

(** The canvas part of the [then] callback. *)
Definition render (host : Host) (imageData : ImageData) (dimensions : Dimensions)
  : Eff (completion BlobData) :=
  let fullDimensions := data_dimensions imageData in
  tell CreateCanvas ;;;
  tell GetContext ;;;
  if negb (has_context2d host) then ret (Throw no_context_message)
  else
    let d := {| drawn := data_image imageData;
                sx := 0; sy := 0;
                sWidth := width fullDimensions; sHeight := height fullDimensions;
                dx := 0; dy := 0;
                dWidth := width dimensions; dHeight := height dimensions |} in
    let canvas := {| canvas_height := height dimensions;
                     canvas_width := width dimensions;
                     canvas_drawn := [d] |} in
    tell (DrawImageCall d) ;;;
    tell ToDataURL ;;;
    ret (Return {| base64 := toDataURL host canvas; dimensions := dimensions |}).

Definition scaleBase64_then (host : Host) (base64 : string) (options : ScaleOptions)
  (imageData : ImageData) : Eff (completion BlobData) :=
  match sizing base64 options (data_dimensions imageData) with
  | inl result => ret (Return result)
  | inr dimensions => render host imageData dimensions
  end.

Definition scaleBase64 (host : Host) (base64 : string) (options : ScaleOptions)
  : Eff (completion (promise BlobData)) :=
  if negb (is_number (opt_height options)) && negb (is_number (opt_width options))
  then ret (Throw invalid_options_message)
  else
    p <- then_ (getImageData host base64) (scaleBase64_then host base64 options) ;;
    ret (Return p).

(** ** A host for the examples *)

Definition png (h w : number) : string -> ImageEvent :=
  fun data => ImageLoad {| src := data; naturalHeight := h; naturalWidth := w |}.

Definition encode (c : Canvas) : string := "data:image/png;base64,scaled".

Definition browser (decode : string -> ImageEvent) : Host :=
  {| image_event := decode;
     reader_event := fun f => ReaderLoad (contents f);
     has_context2d := true;
     toDataURL := encode |}.

Definition dims_of (r : Eff (completion (promise BlobData))) : option (number * number) :=
  match fst r with
  | Return (Resolved b) => Some (height (dimensions b), width (dimensions b))
  | _ => None
  end.

(** The image data [onload] resolves with. *)
Definition loaded (image : HTMLImageElement) : ImageData :=
  {| data_dimensions :=
       {| height := naturalHeight image; width := naturalWidth image |};
     data_image := image |}.

Definition natural (image : HTMLImageElement) : Dimensions :=
  {| height := naturalHeight image; width := naturalWidth image |}.

(** [typeof options.height === "number" || typeof options.width === "number"] *)
Definition valid (o : ScaleOptions) : bool :=
  is_number (opt_height o) || is_number (opt_width o).

(** A host whose decoder fails: it fires [error] on the image. *)
Definition broken : Host :=
  browser (fun data => ImageError {| event_type := "error"; event_target := data |}).

(** A host whose decoder is aborted: it fires [abort] on the image. *)
Definition aborting : Host :=
  browser (fun data => ImageAbort {| event_type := "abort"; event_target := data |}).

Definition options (h w : option number) (p : option bool) : ScaleOptions :=
  {| opt_height := h; opt_width := w; preserveRatio := p |}.

(** [Number.MIN_VALUE], the smallest positive number, 5e-324. *)
Definition MIN_VALUE : number := 0x1p-1074.

(** ** The scaling policy in the words of the specification *)

Module Policy.

(** "a positive number" *)
Definition positive (a : option number) : bool :=
  match a with Some x => 0 <? x | None => false end.

(** [max(H, W)] *)
Definition max (H W : number) : number := if H <=? W then W else H.

(** The constraint [c] of the scale factor [p = c / max(H, W)]:
    [options.height] if [H > W] and both constraints are positive,
    [options.width] if [H <= W] and both are positive, the single positive
    constraint otherwise. *)
Definition constraint (o : ScaleOptions) (H W : number) : option number :=
  match positive (opt_height o), positive (opt_width o) with
  | true, true =>
      if W <? H then opt_height o
      else if H <=? W then opt_width o
      else None
  | true, false => opt_height o
  | false, true => opt_width o
  | false, false => None
  end.

(** A constraint that the natural size [d] already satisfies: it is not
    smaller than [d]. *)
Definition satisfied (a : option number) (d : number) : bool :=
  match a with Some x => negb (x <? d) | None => true end.

(** The value of an axis in free-scaling mode: the option when it is
    provided and is neither zero nor [NaN], else the natural value. *)
Definition free_axis (a : option number) (d : number) : number :=
  match a with
  | Some x => if (x =? 0) || PrimFloat.is_nan x then d else x
  | None => d
  end.

(** On one axis, the constraint [b] of a second call is the constraint [a]
    of the first, or both are given, [a] is non-zero and [b] is at least as
    large. *)
Definition at_least (a b : option number) : Prop :=
  a = b \/
  exists x y, a = Some x /\ b = Some y /\ truthy x = true /\ (x <=? y) = true.

End Policy.

(** ** The sizing of the earlier revision

    Before [chosenHeight] and [chosenWidth] were introduced the callback
    compared and divided the options themselves, so an absent option went
    through ToNumber. *)

Module Earlier.

(** ToNumber on an optional number: [undefined] becomes [NaN]. *)
Definition to_number (a : option number) : number :=
  match a with Some x => x | None => nan end.

Definition percentage (options : ScaleOptions) (fullDimensions : Dimensions) : number :=
  if gt (to_number (opt_height options)) 0 && gt (to_number (opt_width options)) 0 then
    (* Scale the largest dimension *)
    let dimension :=
      if gt (height fullDimensions) (width fullDimensions)
      then to_number (opt_height options) else to_number (opt_width options) in
    dimension / largerDimension fullDimensions
  else if gt (to_number (opt_height options)) 0
  then to_number (opt_height options) / largerDimension fullDimensions
  else if gt (to_number (opt_width options)) 0
  then to_number (opt_width options) / largerDimension fullDimensions
  else 1.

Definition sizing (base64 : string) (options : ScaleOptions) (fullDimensions : Dimensions)
  : BlobData + Dimensions :=
  let dimensions :=
    {| height := height fullDimensions; width := width fullDimensions |} in
  if is_false (preserveRatio options) then
    inr {| height := or_else (opt_height options) (height dimensions);
           width := or_else (opt_width options) (width dimensions) |}
  else if negb (scaleDown options fullDimensions) then
    inl {| base64 := base64; dimensions := dimensions |}
  else
    inr {| height := height fullDimensions * percentage options fullDimensions;
           width := width fullDimensions * percentage options fullDimensions |}.

End Earlier.

(** ** Reading the log of host calls *)

Definition is_decode (c : HostCall) : bool :=
  match c with SetImageSrc _ => true | _ => false end.

Definition is_read (c : HostCall) : bool :=
  match c with ReadAsDataURL _ => true | _ => false end.

(** The one [drawImage] call of the callback: the whole natural image into
    the whole canvas. *)
Definition blit (image : HTMLImageElement) (d : Dimensions) : DrawImage :=
  {| drawn := image;
     sx := 0; sy := 0;
     sWidth := naturalWidth image; sHeight := naturalHeight image;
     dx := 0; dy := 0;
     dWidth := width d; dHeight := height d |}.

(** The canvas as [toDataURL] finds it. *)
Definition surface (image : HTMLImageElement) (d : Dimensions) : Canvas :=
  {| canvas_height := height d; canvas_width := width d;
     canvas_drawn := [blit image d] |}.

(** A host without a 2d context. *)
Definition headless (decode : string -> ImageEvent) : Host :=
  {| image_event := decode;
     reader_event := fun f => ReaderLoad (contents f);
     has_context2d := false;
     toDataURL := encode |}.

(** A host whose file reads are aborted. *)
Definition unreadable : Host :=
  {| image_event := png 200 100;
     reader_event :=
       fun f => ReaderAbort {| event_type := "abort"; event_target := name f |};
     has_context2d := true;
     toDataURL := encode |}.

(** Every way a call of [scaleBase64] can go. *)
Inductive outcome (host : Host) (b : string) (o : ScaleOptions)
  : Eff (completion (promise BlobData)) -> Prop :=
| ThrewInvalid :
    valid o = false ->
    outcome host b o (Throw invalid_options_message, [])
| DecodeAborted (e : Event) :
    valid o = true -> image_event host b = ImageAbort e ->
    outcome host b o (Return (Rejected (ReasonEvent e)), [SetImageSrc b])
| DecodeSilent (e : Event) :
    valid o = true -> image_event host b = ImageError e ->
    outcome host b o (Return Pending, [SetImageSrc b])
| ShortCircuit (image : HTMLImageElement) (r : BlobData) :
    valid o = true -> image_event host b = ImageLoad image ->
    sizing b o (natural image) = inl r ->
    outcome host b o (Return (Resolved r), [SetImageSrc b])
| NoContext (image : HTMLImageElement) (d : Dimensions) :
    valid o = true -> image_event host b = ImageLoad image ->
    sizing b o (natural image) = inr d -> has_context2d host = false ->
    outcome host b o (Return (Rejected (ReasonError no_context_message)),
                      [SetImageSrc b; CreateCanvas; GetContext])
| Rendered (image : HTMLImageElement) (d : Dimensions) :
    valid o = true -> image_event host b = ImageLoad image ->
    sizing b o (natural image) = inr d -> has_context2d host = true ->
    outcome host b o
      (Return (Resolved {| base64 := toDataURL host (surface image d);
                           dimensions := d |}),
       [SetImageSrc b; CreateCanvas; GetContext;
        DrawImageCall (blit image d); ToDataURL]).

(** ** Order facts about binary64 numbers, through their specification *)

Module FloatOrder.

Ltac order_cases :=
  repeat match goal with
  | |- context [(?a ?= ?b)%Z] => destruct (Z.compare_spec a b)
  | |- context [(?a ?= ?b)%positive] => destruct (Pos.compare_spec a b)
  | H : context [(?a ?= ?b)%Z] |- _ => destruct (Z.compare_spec a b)
  | H : context [(?a ?= ?b)%positive] |- _ => destruct (Pos.compare_spec a b)
  end; simpl in *; try discriminate; try reflexivity; try lia.

Lemma cmp_refl (e : Z) (m : positive) :
  (e ?= e)%Z = Eq /\ Pos.compare_cont Eq m m = Eq.
Proof. split; [apply Z.compare_refl | apply Pos.compare_refl]. Qed.

Lemma SFcompare_refl (x : spec_float) :
  x <> S754_nan -> SFcompare x x = Some Eq.
Proof.
  destruct x as [s | s | | s m e]; simpl; intros Hx.
  - reflexivity.
  - destruct s; reflexivity.
  - congruence.
  - destruct (cmp_refl e m) as [-> ->]. destruct s; reflexivity.
Qed.

Lemma SFcompare_swap (x y : spec_float) :
  SFcompare y x = option_map CompOpp (SFcompare x y).
Proof.
  destruct x as [s1 | s1 | | s1 m1 e1], y as [s2 | s2 | | s2 m2 e2];
    simpl; try reflexivity;
    try (destruct s1; reflexivity); try (destruct s2; reflexivity);
    try (destruct s1, s2; reflexivity).
  change (Pos.compare_cont Eq m1 m2) with (m1 ?= m2)%positive.
  change (Pos.compare_cont Eq m2 m1) with (m2 ?= m1)%positive.
  rewrite (Z.compare_antisym e1 e2), (Pos.compare_antisym m1 m2).
  destruct s1, s2; simpl; try reflexivity;
    destruct (e1 ?= e2)%Z; simpl; try reflexivity;
    destruct (m1 ?= m2)%positive; reflexivity.
Qed.

Lemma SFcompare_None (x y : spec_float) :
  x <> S754_nan -> y <> S754_nan -> SFcompare x y <> None.
Proof.
  destruct x as [s1 | s1 | | s1 m1 e1], y as [s2 | s2 | | s2 m2 e2];
    simpl; congruence.
Qed.

Lemma SFleb_SFltb_trans (a b c : spec_float) :
  SFleb a b = true -> SFltb b c = true -> SFltb a c = true.
Proof.
  unfold SFleb, SFltb.
  destruct a as [s1 | s1 | | s1 m1 e1], b as [s2 | s2 | | s2 m2 e2],
           c as [s3 | s3 | | s3 m3 e3];
    simpl; try discriminate; try reflexivity;
    try (destruct s1; simpl; try discriminate; try reflexivity);
    try (destruct s2; simpl; try discriminate; try reflexivity);
    try (destruct s3; simpl; try discriminate; try reflexivity);
    change (Pos.compare_cont Eq) with Pos.compare;
    intros H1 H2; order_cases.
Qed.

Lemma not_nan (x : float) : PrimFloat.is_nan x = false -> Prim2SF x <> S754_nan.
Proof.
  unfold PrimFloat.is_nan. rewrite eqb_spec. intros H E.
  rewrite E in H. discriminate H.
Qed.

Lemma nan_is (x : float) : PrimFloat.is_nan x = true -> Prim2SF x = S754_nan.
Proof.
  unfold PrimFloat.is_nan. rewrite eqb_spec. unfold SFeqb. intros H.
  destruct (Prim2SF x) as [s | s | | s m e] eqn:E; try reflexivity;
    rewrite SFcompare_refl in H by discriminate; discriminate H.
Qed.

Lemma ltb_negb_leb (x y : float) :
  PrimFloat.is_nan x = false -> PrimFloat.is_nan y = false ->
  (y <? x) = negb (x <=? y).
Proof.
  intros Hx Hy. rewrite ltb_spec, leb_spec. unfold SFltb, SFleb.
  rewrite (SFcompare_swap (Prim2SF x) (Prim2SF y)).
  pose proof (SFcompare_None _ _ (not_nan x Hx) (not_nan y Hy)) as Hc.
  destruct (SFcompare (Prim2SF x) (Prim2SF y)) as [[ | | ] | ];
    simpl; congruence.
Qed.

Lemma leb_ltb_trans (a b c : float) :
  (a <=? b) = true -> (b <? c) = true -> (a <? c) = true.
Proof. rewrite leb_spec, !ltb_spec. apply SFleb_SFltb_trans. Qed.

Lemma falsy_not_positive (x : float) : truthy x = false -> (0 <? x) = false.
Proof.
  unfold truthy. intros H. apply negb_false_iff, orb_true_iff in H.
  rewrite ltb_spec. unfold SFltb. destruct H as [H | H].
  - rewrite eqb_spec in H. unfold SFeqb in H.
    rewrite (SFcompare_swap (Prim2SF x) (Prim2SF 0)).
    destruct (SFcompare (Prim2SF x) (Prim2SF 0)) as [[ | | ] | ];
      simpl; congruence.
  - rewrite (nan_is x H). reflexivity.
Qed.

End FloatOrder.

(** ** How [scaleBase64] unfolds *)

Lemma spread_from_skipn {A} (l : list A) (fuel index : nat) :
  (index + fuel)%nat = List.length l -> spread_from l index fuel = skipn index l.
Proof.
  revert index. induction fuel as [ | fuel IH]; intros index H; simpl.
  - rewrite skipn_all2 by lia. reflexivity.
  - destruct (nth_error l index) as [x | ] eqn:E.
    + rewrite IH by lia.
      clear IH H. revert index E. induction l as [ | y l IHl]; intros [ | i] E;
        simpl in *; try discriminate.
      * injection E as ->. reflexivity.
      * apply IHl, E.
    + apply nth_error_None in E. lia.
Qed.

Lemma spread_id {A} (l : list A) : spread l = l.
Proof. unfold spread. rewrite spread_from_skipn by lia. reflexivity. Qed.

Lemma valid_negb (o : ScaleOptions) :
  valid o = true ->
  negb (is_number (opt_height o)) && negb (is_number (opt_width o)) = false.
Proof.
  unfold valid. destruct (is_number (opt_height o)), (is_number (opt_width o));
    simpl; congruence.
Qed.

Lemma scaleBase64_loaded (host : Host) (b : string) (o : ScaleOptions)
  (image : HTMLImageElement) :
  valid o = true ->
  image_event host b = ImageLoad image ->
  scaleBase64 host b o =
    (Return (match fst (scaleBase64_then host b o (loaded image)) with
             | Return x => Resolved x
             | Throw m => Rejected (ReasonError m)
             end),
     SetImageSrc b :: snd (scaleBase64_then host b o (loaded image))).
Proof.
  intros Hv Hl. unfold scaleBase64. rewrite (valid_negb o Hv).
  unfold then_, getImageData, bind, tell, ret. rewrite Hl.
  fold (loaded image).
  destruct (scaleBase64_then host b o (loaded image)) as [c l]. simpl.
  rewrite !app_nil_r. reflexivity.
Qed.

Lemma scaleBase64_short (host : Host) (b : string) (o : ScaleOptions)
  (image : HTMLImageElement) :
  valid o = true ->
  image_event host b = ImageLoad image ->
  is_false (preserveRatio o) = false ->
  scaleDown o (natural image) = false ->
  scaleBase64 host b o =
    (Return (Resolved {| base64 := b; dimensions := natural image |}),
     [SetImageSrc b]).
Proof.
  intros Hv Hl Hp Hs. rewrite (scaleBase64_loaded host b o image Hv Hl).
  unfold scaleBase64_then, sizing, loaded. simpl.
  fold (natural image). rewrite Hp, Hs. reflexivity.
Qed.

Lemma scaleBase64_rendered (host : Host) (b : string) (o : ScaleOptions)
  (image : HTMLImageElement) (d : Dimensions) :
  valid o = true ->
  image_event host b = ImageLoad image ->
  sizing b o (natural image) = inr d ->
  has_context2d host = true ->
  dims_of (scaleBase64 host b o) = Some (height d, width d).
Proof.
  intros Hv Hl Hs Hc. rewrite (scaleBase64_loaded host b o image Hv Hl).
  unfold scaleBase64_then, loaded. simpl. fold (natural image). rewrite Hs.
  unfold render, bind, tell, ret. rewrite Hc. reflexivity.
Qed.

Lemma scaleDown_valid (o : ScaleOptions) (d : Dimensions) :
  scaleDown o d = true -> valid o = true.
Proof.
  unfold scaleDown, valid. destruct (opt_height o), (opt_width o); simpl; auto.
Qed.

Lemma satisfied_and_then (a : option number) (d : number) :
  Policy.satisfied a d = true -> and_then a (fun x => gt d x) = false.
Proof.
  unfold Policy.satisfied, and_then, gt. destruct a as [x | ]; [ | reflexivity].
  intros H. apply negb_true_iff in H. rewrite H. destruct (truthy x); reflexivity.
Qed.

Lemma or_else_free_axis (a : option number) (d : number) :
  or_else a d = Policy.free_axis a d.
Proof.
  unfold or_else, Policy.free_axis, truthy. destruct a as [x | ]; [ | reflexivity].
  destruct ((x =? 0) || PrimFloat.is_nan x); reflexivity.
Qed.

(** ** The claims *)

(** C3: when neither [options.height] nor [options.width] is a number,
    [scaleBase64] throws the invalid-options error on the turn of the call:
    it returns no promise, and the host has not been asked to decode
    anything. *)
Theorem C3_invalid_options_thrown_before_decode
  (host : Host) (b : string) (o : ScaleOptions) :
  is_number (opt_height o) = false ->
  is_number (opt_width o) = false ->
  scaleBase64 host b o = (Throw invalid_options_message, []).
Proof.
  intros Hh Hw. unfold scaleBase64. rewrite Hh, Hw. reflexivity.
Qed.

Lemma C3_witness :
  scaleBase64 (browser (png 200 100)) "data:image/png;base64,AAAA"
    (options None None (Some true))
  = (Throw invalid_options_message, []).
Proof.
  apply (C3_invalid_options_thrown_before_decode
           (browser (png 200 100)) "data:image/png;base64,AAAA"
           (options None None (Some true))); reflexivity.
Defined.

(** C4: in ratio-preserving mode, when no given height is smaller than the
    natural height and no given width is smaller than the natural width,
    [scaleBase64] resolves with the string it was given and the natural
    dimensions, and the only host call made is the decode: no canvas is
    created and nothing is re-encoded. *)
Theorem C4_satisfied_constraints_return_original
  (host : Host) (b : string) (o : ScaleOptions) (image : HTMLImageElement) :
  valid o = true ->
  is_false (preserveRatio o) = false ->
  image_event host b = ImageLoad image ->
  Policy.satisfied (opt_height o) (naturalHeight image) = true ->
  Policy.satisfied (opt_width o) (naturalWidth image) = true ->
  scaleBase64 host b o =
    (Return (Resolved {| base64 := b;
                         dimensions := {| height := naturalHeight image;
                                          width := naturalWidth image |} |}),
     [SetImageSrc b]).
Proof.
  intros Hv Hp Hl Hh Hw.
  apply (scaleBase64_short host b o image Hv Hl Hp).
  unfold scaleDown, natural. simpl.
  rewrite (satisfied_and_then _ _ Hh), (satisfied_and_then _ _ Hw). reflexivity.
Qed.

Lemma C4_witness :
  scaleBase64 (browser (png 200 100)) "data:image/png;base64,AAAA"
    (options (Some 200) (Some 400) None)
  = (Return (Resolved {| base64 := "data:image/png;base64,AAAA";
                         dimensions := {| height := 200; width := 100 |} |}),
     [SetImageSrc "data:image/png;base64,AAAA"]).
Proof.
  apply (C4_satisfied_constraints_return_original
           (browser (png 200 100)) "data:image/png;base64,AAAA"
           (options (Some 200) (Some 400) None)
           {| src := "data:image/png;base64,AAAA";
              naturalHeight := 200; naturalWidth := 100 |});
    reflexivity.
Defined.

(** C6: with [preserveRatio === false] each axis is set on its own: the
    result height is [options.height] when that is provided and is not zero
    (nor [NaN]), else the natural height, and likewise for the width; a
    200x100 image with [{height: 300, width: 300, preserveRatio: false}]
    comes out as (300, 300). *)
Theorem C6_free_scaling_sets_axes_independently :
  (forall (host : Host) (b : string) (o : ScaleOptions) (image : HTMLImageElement),
      valid o = true ->
      preserveRatio o = Some false ->
      image_event host b = ImageLoad image ->
      has_context2d host = true ->
      dims_of (scaleBase64 host b o) =
        Some (Policy.free_axis (opt_height o) (naturalHeight image),
              Policy.free_axis (opt_width o) (naturalWidth image)))
  /\ dims_of (scaleBase64 (browser (png 200 100)) "data:image/png;base64,AAAA"
                (options (Some 300) (Some 300) (Some false)))
     = Some (300, 300)
  /\ dims_of (scaleBase64 (browser (png 200 100)) "data:image/png;base64,AAAA"
                (options (Some 0) (Some 300) (Some false)))
     = Some (200, 300).
Proof.
  split; [ | split; reflexivity].
  intros host b o image Hv Hp Hl Hc.
  rewrite (scaleBase64_rendered host b o image
             {| height := Policy.free_axis (opt_height o) (naturalHeight image);
                width := Policy.free_axis (opt_width o) (naturalWidth image) |}
             Hv Hl); [reflexivity | | exact Hc].
  unfold sizing. rewrite Hp. simpl. rewrite !or_else_free_axis. reflexivity.
Qed.

Lemma C6_witness :
  dims_of (scaleBase64 (browser (png 200 100)) "data:image/png;base64,AAAA"
             (options (Some 300) None (Some false)))
  = Some (300, 100).
Proof.
  apply (proj1 C6_free_scaling_sets_axes_independently
           (browser (png 200 100)) "data:image/png;base64,AAAA"
           (options (Some 300) None (Some false))
           {| src := "data:image/png;base64,AAAA";
              naturalHeight := 200; naturalWidth := 100 |});
    reflexivity.
Defined.

(** C9: [getFileBlobs] resolves with exactly the entries of the input's file
    list, in the list's order and as many as there are; an empty list and a
    missing list both give the empty array; it never rejects and never stays
    pending. *)
Theorem C9_getFileBlobs_lists_entries_in_order :
  (forall input : HTMLInputElement,
      getFileBlobs input = Resolved (entries input))
  /\ (forall l : list File,
         exists out, getFileBlobs {| files := Some l |} = Resolved out
                     /\ out = l /\ List.length out = List.length l)
  /\ getFileBlobs {| files := Some [] |} = Resolved []
  /\ getFileBlobs {| files := None |} = Resolved [].
Proof.
  assert (H : forall input, getFileBlobs input = Resolved (entries input)).
  { intros input. unfold getFileBlobs. rewrite spread_id. reflexivity. }
  split; [exact H | ]. split; [ | split; reflexivity].
  intros l. exists l. rewrite H. repeat split.
Qed.

(** C10, as amended: in ratio-preserving mode [{height: 0}] and [{width: 0}] pass the
    entry check (nothing is thrown), the zero is ignored by the downscale
    test, and the call resolves with the string it was given and the natural
    dimensions after the decode alone. *)
Theorem C10_zero_constraint_is_ignored
  (host : Host) (b : string) (p : option bool) (image : HTMLImageElement) :
  is_false p = false ->
  image_event host b = ImageLoad image ->
  let original :=
    (Return (Resolved {| base64 := b;
                         dimensions := {| height := naturalHeight image;
                                          width := naturalWidth image |} |}),
     [SetImageSrc b]) in
  valid (options (Some 0) None p) = true
  /\ valid (options None (Some 0) p) = true
  /\ scaleBase64 host b (options (Some 0) None p) = original
  /\ scaleBase64 host b (options None (Some 0) p) = original.
Proof.
  intros Hp Hl original. split; [reflexivity | ]. split; [reflexivity | ].
  split; apply (scaleBase64_short host b _ image); auto.
Qed.

Lemma C10_witness :
  scaleBase64 (browser (png 200 100)) "data:image/png;base64,AAAA"
    (options (Some 0) None None)
  = (Return (Resolved {| base64 := "data:image/png;base64,AAAA";
                         dimensions := {| height := 200; width := 100 |} |}),
     [SetImageSrc "data:image/png;base64,AAAA"]).
Proof.
  apply (C10_zero_constraint_is_ignored
           (browser (png 200 100)) "data:image/png;base64,AAAA" None
           {| src := "data:image/png;base64,AAAA";
              naturalHeight := 200; naturalWidth := 100 |});
    reflexivity.
Defined.

(** C10, where it fails: a zero-sized output can be asked for in
    ratio-preserving mode.  [{width: 5e-324}] on a 100x200 image passes the
    entry check and the downscale test (200 > 5e-324); the factor
    [5e-324 / 200] underflows to 0, and the call renders and resolves
    with the dimensions (0, 0). *)
Lemma C10_tiny_constraint_gives_zero_size :
  valid (options None (Some MIN_VALUE) None) = true
  /\ is_false (preserveRatio (options None (Some MIN_VALUE) None)) = false
  /\ truthy MIN_VALUE = true
  /\ percentage (options None (Some MIN_VALUE) None)
       {| height := 100; width := 200 |} = 0
  /\ dims_of (scaleBase64 (browser (png 100 200)) "data:image/png;base64,AAAA"
                (options None (Some MIN_VALUE) None))
     = Some (0, 0)
  /\ In ToDataURL
        (snd (scaleBase64 (browser (png 100 200)) "data:image/png;base64,AAAA"
                (options None (Some MIN_VALUE) None))).
Proof. repeat split. simpl. auto 6. Qed.

Lemma chosen_positive (a : option number) :
  gt (or_else a 0) 0 = Policy.positive a.
Proof.
  unfold gt, or_else, Policy.positive. destruct a as [x | ]; [ | reflexivity].
  destruct (truthy x) eqn:E; [reflexivity | ].
  rewrite (FloatOrder.falsy_not_positive x E). reflexivity.
Qed.

Lemma chosen_value (a : option number) (c : number) :
  Policy.positive a = true -> a = Some c -> or_else a 0 = c.
Proof.
  intros Hp ->. unfold or_else. simpl in Hp.
  destruct (truthy c) eqn:E; [reflexivity | ].
  rewrite (FloatOrder.falsy_not_positive c E) in Hp. discriminate Hp.
Qed.

Lemma largerDimension_max (H W : number) :
  PrimFloat.is_nan H = false -> PrimFloat.is_nan W = false ->
  largerDimension {| height := H; width := W |} = Policy.max H W.
Proof.
  intros HH HW. unfold largerDimension, Policy.max, gt. simpl.
  rewrite (FloatOrder.ltb_negb_leb H W HH HW).
  destruct (H <=? W); reflexivity.
Qed.

Lemma percentage_constraint (o : ScaleOptions) (H W c : number) :
  PrimFloat.is_nan H = false -> PrimFloat.is_nan W = false ->
  Policy.constraint o H W = Some c ->
  percentage o {| height := H; width := W |} = c / Policy.max H W.
Proof.
  intros HH HW Hc. unfold percentage.
  rewrite !chosen_positive, (largerDimension_max H W HH HW).
  unfold Policy.constraint in Hc. unfold gt. simpl.
  destruct (Policy.positive (opt_height o)) eqn:Ph,
           (Policy.positive (opt_width o)) eqn:Pw; simpl.
  - destruct (W <? H).
    + rewrite (chosen_value _ c Ph Hc). reflexivity.
    + destruct (H <=? W); [ | discriminate Hc].
      rewrite (chosen_value _ c Pw Hc). reflexivity.
  - rewrite (chosen_value _ c Ph Hc). reflexivity.
  - rewrite (chosen_value _ c Pw Hc). reflexivity.
  - discriminate Hc.
Qed.

(** C2: in ratio-preserving mode, when the downscale test holds, the result
    is [(H * p, W * p)] with [p = c / max(H, W)], where [c] is
    [options.height] if [H > W] and both constraints are positive,
    [options.width] if [H <= W] and both are positive, and the single
    positive constraint otherwise.  A 200x100 image comes out as (50, 25)
    both with [{height: 50, width: 50, preserveRatio: true}] and with
    [{width: 50, preserveRatio: true}]. *)
Theorem C2_scale_factor_from_larger_axis :
  (forall (host : Host) (b : string) (o : ScaleOptions)
          (image : HTMLImageElement) (c : number),
      let H := naturalHeight image in
      let W := naturalWidth image in
      is_false (preserveRatio o) = false ->
      image_event host b = ImageLoad image ->
      PrimFloat.is_nan H = false ->
      PrimFloat.is_nan W = false ->
      has_context2d host = true ->
      scaleDown o {| height := H; width := W |} = true ->
      Policy.constraint o H W = Some c ->
      dims_of (scaleBase64 host b o) =
        Some (H * (c / Policy.max H W), W * (c / Policy.max H W)))
  /\ dims_of (scaleBase64 (browser (png 200 100)) "data:image/png;base64,AAAA"
                (options (Some 50) (Some 50) (Some true)))
     = Some (50, 25)
  /\ dims_of (scaleBase64 (browser (png 200 100)) "data:image/png;base64,AAAA"
                (options None (Some 50) (Some true)))
     = Some (50, 25).
Proof.
  split; [ | split; reflexivity].
  intros host b o image c H W Hp Hl HH HW Hctx Hs Hc.
  rewrite (scaleBase64_rendered host b o image
             {| height := H * (c / Policy.max H W);
                width := W * (c / Policy.max H W) |}
             (scaleDown_valid o _ Hs) Hl); [reflexivity | | exact Hctx].
  unfold sizing, natural. fold H W. rewrite Hp, Hs. simpl.
  rewrite (percentage_constraint o H W c HH HW Hc). reflexivity.
Qed.

Lemma C2_witness :
  dims_of (scaleBase64 (browser (png 300 400)) "data:image/png;base64,AAAA"
             (options (Some 150) (Some 100) None))
  = Some (300 * (100 / 400), 400 * (100 / 400)).
Proof.
  apply (proj1 C2_scale_factor_from_larger_axis
           (browser (png 300 400)) "data:image/png;base64,AAAA"
           (options (Some 150) (Some 100) None)
           {| src := "data:image/png;base64,AAAA";
              naturalHeight := 300; naturalWidth := 400 |} 100);
    reflexivity.
Defined.

(** C7: when the host fires [abort] on the image, [getImageData] rejects
    with that event itself after one decode attempt, and [getBase64] and
    [scaleBase64] reject with the same event, neither wrapped nor retried. *)
Theorem C7_abort_event_forwarded_verbatim
  (host : Host) (b : string) (event : Event) :
  image_event host b = ImageAbort event ->
  getImageData host b = (Rejected (ReasonEvent event), [SetImageSrc b])
  /\ (forall file : File,
         reader_event host file = ReaderLoad b ->
         getBase64 host file =
           (Rejected (ReasonEvent event), [ReadAsDataURL file; SetImageSrc b]))
  /\ (forall o : ScaleOptions,
         valid o = true ->
         scaleBase64 host b o =
           (Return (Rejected (ReasonEvent event)), [SetImageSrc b])).
Proof.
  intros Ha. split; [ | split].
  - unfold getImageData, bind, tell, ret. rewrite Ha. reflexivity.
  - intros file Hr. unfold getBase64, then_, getImageData, bind, tell, ret.
    rewrite Hr, Ha. reflexivity.
  - intros o Hv. unfold scaleBase64. rewrite (valid_negb o Hv).
    unfold then_, getImageData, bind, tell, ret. rewrite Ha. reflexivity.
Qed.

Lemma C7_witness :
  getImageData aborting "data:image/png;base64,AAAA"
  = (Rejected (ReasonEvent {| event_type := "abort";
                              event_target := "data:image/png;base64,AAAA" |}),
     [SetImageSrc "data:image/png;base64,AAAA"]).
Proof.
  apply (C7_abort_event_forwarded_verbatim
           aborting "data:image/png;base64,AAAA"
           {| event_type := "abort";
              event_target := "data:image/png;base64,AAAA" |}).
  reflexivity.
Defined.

(** C7, where it fails: a decode failure reaches the image as an [error]
    event, for which no handler is installed; the promise of [getImageData]
    stays pending, and so do those of [getBase64] and [scaleBase64]. *)
Lemma C7_decode_error_leaves_promise_pending :
  image_event broken "data:image/png;base64,!!!!"
  = ImageError {| event_type := "error";
                  event_target := "data:image/png;base64,!!!!" |}
  /\ getImageData broken "data:image/png;base64,!!!!"
     = (Pending, [SetImageSrc "data:image/png;base64,!!!!"])
  /\ fst (getBase64 broken {| name := "a.png";
                              contents := "data:image/png;base64,!!!!" |})
     = Pending
  /\ scaleBase64 broken "data:image/png;base64,!!!!" (options (Some 50) None None)
     = (Return Pending, [SetImageSrc "data:image/png;base64,!!!!"]).
Proof. repeat split. Qed.

Lemma invalid_thrown (host : Host) (b : string) (o : ScaleOptions) :
  valid o = false -> scaleBase64 host b o = (Throw invalid_options_message, []).
Proof.
  unfold valid, scaleBase64.
  destruct (is_number (opt_height o)), (is_number (opt_width o));
    simpl; intros Hv; try discriminate Hv; reflexivity.
Qed.

Lemma render_trace (host : Host) (imageData : ImageData) (d : Dimensions) :
  exists l, snd (render host imageData d) = CreateCanvas :: l.
Proof.
  unfold render, bind, tell, ret. destruct (has_context2d host); simpl; eauto.
Qed.

(** The short-circuit path, seen from outside: the call resolved and the
    decode was the only host call. *)
Lemma short_circuit_inv (host : Host) (b : string) (o : ScaleOptions) (r : BlobData) :
  scaleBase64 host b o = (Return (Resolved r), [SetImageSrc b]) ->
  exists image,
    valid o = true /\ image_event host b = ImageLoad image
    /\ is_false (preserveRatio o) = false
    /\ scaleDown o (natural image) = false
    /\ r = {| base64 := b; dimensions := natural image |}.
Proof.
  intros Hs. destruct (valid o) eqn:Hv.
  2:{ rewrite (invalid_thrown host b o Hv) in Hs. discriminate Hs. }
  destruct (image_event host b) as [image | e | e] eqn:Hl.
  - exists image. rewrite (scaleBase64_loaded host b o image Hv Hl) in Hs.
    unfold scaleBase64_then, sizing, loaded in Hs. simpl in Hs.
    fold (natural image) in Hs.
    destruct (is_false (preserveRatio o)).
    + destruct (render_trace host
                  {| data_dimensions := natural image; data_image := image |}
                  {| height := or_else (opt_height o) (naturalHeight image);
                     width := or_else (opt_width o) (naturalWidth image) |})
        as [l Hr].
      unfold natural in Hs at 1. simpl in Hs. rewrite Hr in Hs. discriminate Hs.
    + destruct (scaleDown o (natural image)); simpl in Hs.
      * match type of Hs with
        | context [render ?h ?i ?d] => destruct (render_trace h i d) as [l Hr]
        end.
        rewrite Hr in Hs. discriminate Hs.
      * injection Hs as <-. repeat split; reflexivity.
  - unfold scaleBase64 in Hs. rewrite (valid_negb o Hv) in Hs.
    unfold then_, getImageData, bind, tell, ret in Hs. rewrite Hl in Hs.
    discriminate Hs.
  - unfold scaleBase64 in Hs. rewrite (valid_negb o Hv) in Hs.
    unfold then_, getImageData, bind, tell, ret in Hs. rewrite Hl in Hs.
    discriminate Hs.
Qed.

Lemma at_least_is_number (a1 a2 : option number) :
  Policy.at_least a1 a2 -> is_number a1 = is_number a2.
Proof.
  intros [-> | (x & y & -> & -> & _)]; reflexivity.
Qed.

Lemma at_least_and_then (a1 a2 : option number) (d : number) :
  Policy.at_least a1 a2 ->
  and_then a1 (fun x => gt d x) = false ->
  and_then a2 (fun x => gt d x) = false.
Proof.
  intros [-> | (x & y & -> & -> & Hx & Hle)]; [auto | ].
  unfold and_then, gt. rewrite Hx. intros Hd.
  destruct (truthy y); [ | reflexivity].
  destruct (y <? d) eqn:Hy; [ | reflexivity].
  rewrite (FloatOrder.leb_ltb_trans x y d Hle Hy) in Hd. discriminate Hd.
Qed.

(** C8, as amended: when a ratio-preserving call went through the
    short-circuit path (it resolved and the decode was its only host call),
    a second ratio-preserving call on its result resolves with the same
    string and the same dimensions, again through the short-circuit path,
    provided that on each axis the second constraint is the first one, or
    both are given, the first is non-zero and the second is at least as
    large. *)
Theorem C8_short_circuit_idempotent
  (host : Host) (b : string) (o1 o2 : ScaleOptions) (r : BlobData) :
  is_false (preserveRatio o1) = false ->
  is_false (preserveRatio o2) = false ->
  scaleBase64 host b o1 = (Return (Resolved r), [SetImageSrc b]) ->
  Policy.at_least (opt_height o1) (opt_height o2) ->
  Policy.at_least (opt_width o1) (opt_width o2) ->
  scaleBase64 host (base64 r) o2 = (Return (Resolved r), [SetImageSrc (base64 r)]).
Proof.
  intros _ Hp2 Hs Hh Hw.
  destruct (short_circuit_inv host b o1 r Hs) as (image & Hv & Hl & _ & Hd & ->).
  simpl. apply (scaleBase64_short host b o2 image); try assumption.
  - unfold valid in *.
    rewrite <- (at_least_is_number _ _ Hh), <- (at_least_is_number _ _ Hw).
    exact Hv.
  - unfold scaleDown in *. apply orb_false_iff in Hd. destruct Hd as [Hd1 Hd2].
    rewrite (at_least_and_then _ _ _ Hh Hd1), (at_least_and_then _ _ _ Hw Hd2).
    reflexivity.
Qed.

Lemma C8_witness :
  scaleBase64 (browser (png 200 100)) "data:image/png;base64,AAAA"
    (options (Some 300) (Some 100) None)
  = (Return (Resolved {| base64 := "data:image/png;base64,AAAA";
                         dimensions := {| height := 200; width := 100 |} |}),
     [SetImageSrc "data:image/png;base64,AAAA"]).
Proof.
  apply (C8_short_circuit_idempotent
           (browser (png 200 100)) "data:image/png;base64,AAAA"
           (options (Some 200) (Some 100) (Some true))
           (options (Some 300) (Some 100) None)
           {| base64 := "data:image/png;base64,AAAA";
              dimensions := {| height := 200; width := 100 |} |}).
  - reflexivity.
  - reflexivity.
  - reflexivity.
  - right. exists 200, 300. repeat split; reflexivity.
  - left. reflexivity.
Defined.

(** C8, where it fails: [{height: 0}] on a 10x10 image goes through the
    short-circuit path; the second call, with the larger constraint
    [{height: 5}], scales the result down to 5x5 and re-encodes it. *)
Lemma C8_zero_then_larger_constraint_rescales :
  scaleBase64 (browser (png 10 10)) "data:image/png;base64,AAAA"
    (options (Some 0) None None)
  = (Return (Resolved {| base64 := "data:image/png;base64,AAAA";
                         dimensions := {| height := 10; width := 10 |} |}),
     [SetImageSrc "data:image/png;base64,AAAA"])
  /\ (0 <=? 5) = true
  /\ fst (scaleBase64 (browser (png 10 10)) "data:image/png;base64,AAAA"
            (options (Some 5) None None))
     = Return (Resolved {| base64 := "data:image/png;base64,scaled";
                           dimensions := {| height := 5; width := 5 |} |}).
Proof. repeat split. Qed.

(** C1, at an input where the code breaks it: a 200x100 image with
    [{height: 200, width: 50}] in ratio-preserving mode needs scaling down
    (its width exceeds 50); the factor is taken from the height constraint
    alone, [200 / 200], and the result is 200x100, wider than the 50
    allowed. *)
Theorem C1_width_constraint_exceeded :
  Policy.positive (Some 200) = true
  /\ Policy.positive (Some 50) = true
  /\ dims_of (scaleBase64 (browser (png 200 100)) "data:image/png;base64,AAAA"
                (options (Some 200) (Some 50) None))
     = Some (200, 100)
  /\ (100 <=? 50) = false.
Proof. repeat split. Qed.

(** C5, at an input where the code breaks it: a 100x200 image with
    [{height: 50, width: 300}] in ratio-preserving mode needs scaling down
    (its height exceeds 50); the factor is taken from the width constraint
    alone, [300 / 200], and the result is 150x300, larger than the natural
    size on both axes. *)
Theorem C5_ratio_mode_upscales :
  is_false (preserveRatio (options (Some 50) (Some 300) None)) = false
  /\ dims_of (scaleBase64 (browser (png 100 200)) "data:image/png;base64,AAAA"
                (options (Some 50) (Some 300) None))
     = Some (150, 300)
  /\ (150 <=? 100) = false
  /\ (300 <=? 200) = false.
Proof. repeat split. Qed.

(** ** Further properties of the code *)

Lemma scaleBase64_render_full (host : Host) (b : string) (o : ScaleOptions)
  (image : HTMLImageElement) (d : Dimensions) :
  valid o = true ->
  image_event host b = ImageLoad image ->
  sizing b o (natural image) = inr d ->
  scaleBase64 host b o =
    if has_context2d host then
      (Return (Resolved {| base64 := toDataURL host (surface image d);
                           dimensions := d |}),
       [SetImageSrc b; CreateCanvas; GetContext;
        DrawImageCall (blit image d); ToDataURL])
    else
      (Return (Rejected (ReasonError no_context_message)),
       [SetImageSrc b; CreateCanvas; GetContext]).
Proof.
  intros Hv Hl Hs. rewrite (scaleBase64_loaded host b o image Hv Hl).
  unfold scaleBase64_then, loaded. simpl. fold (natural image). rewrite Hs.
  unfold render, bind, tell, ret. destruct (has_context2d host); reflexivity.
Qed.

(** X1: when the reader loads the file and the image decodes, [getBase64]
    resolves with the reader's string, the file's name and the natural
    dimensions, after one read and one decode, in that order. *)
Theorem getBase64_resolves_with_details
  (host : Host) (file : File) (b : string) (image : HTMLImageElement) :
  reader_event host file = ReaderLoad b ->
  image_event host b = ImageLoad image ->
  getBase64 host file =
    (Resolved {| details_base64 := b;
                 details_dimensions := {| height := naturalHeight image;
                                          width := naturalWidth image |};
                 filename := name file |},
     [ReadAsDataURL file; SetImageSrc b]).
Proof.
  intros Hr Hl. unfold getBase64, then_, getImageData, bind, tell, ret.
  rewrite Hr, Hl. reflexivity.
Qed.

Lemma getBase64_resolves_with_details_witness :
  getBase64 (browser (png 150 75))
    {| name := "my-file.png"; contents := "data:image/png;base64,AAAA" |}
  = (Resolved {| details_base64 := "data:image/png;base64,AAAA";
                 details_dimensions := {| height := 150; width := 75 |};
                 filename := "my-file.png" |},
     [ReadAsDataURL {| name := "my-file.png";
                       contents := "data:image/png;base64,AAAA" |};
      SetImageSrc "data:image/png;base64,AAAA"]).
Proof.
  apply (getBase64_resolves_with_details
           (browser (png 150 75))
           {| name := "my-file.png"; contents := "data:image/png;base64,AAAA" |}
           "data:image/png;base64,AAAA"
           {| src := "data:image/png;base64,AAAA";
              naturalHeight := 150; naturalWidth := 75 |});
    reflexivity.
Defined.

(** X2: when the read is aborted, [getBase64] rejects with the reader's
    event itself, and the image decoder is never asked for anything. *)
Theorem getBase64_read_abort_rejects_without_decode
  (host : Host) (file : File) (event : Event) :
  reader_event host file = ReaderAbort event ->
  getBase64 host file = (Rejected (ReasonEvent event), [ReadAsDataURL file])
  /\ filter is_decode (snd (getBase64 host file)) = [].
Proof.
  intros Hr. unfold getBase64, bind, tell, ret. rewrite Hr. split; reflexivity.
Qed.

Lemma getBase64_read_abort_witness :
  getBase64 unreadable {| name := "a.png"; contents := "data:," |}
  = (Rejected (ReasonEvent {| event_type := "abort"; event_target := "a.png" |}),
     [ReadAsDataURL {| name := "a.png"; contents := "data:," |}]).
Proof.
  apply (getBase64_read_abort_rejects_without_decode
           unreadable {| name := "a.png"; contents := "data:," |}
           {| event_type := "abort"; event_target := "a.png" |}).
  reflexivity.
Defined.

(** X3: whatever [getBase64] resolves with, decoding the string it reports
    gives the dimensions it reports, and the reported name is the file's. *)
Theorem getBase64_dimensions_are_those_of_its_string
  (host : Host) (file : File) (details : BlobDetails) :
  fst (getBase64 host file) = Resolved details ->
  filename details = name file
  /\ exists data,
       fst (getImageData host (details_base64 details)) = Resolved data
       /\ data_dimensions data = details_dimensions details.
Proof.
  unfold getBase64, then_, getImageData, bind, tell, ret.
  destruct (reader_event host file) as [b | e | e] eqn:Hr; simpl;
    try discriminate.
  destruct (image_event host b) as [image | e | e] eqn:Hl; simpl;
    try discriminate.
  intros H. injection H as <-. simpl. rewrite Hl. split; [reflexivity | ].
  eexists. split; reflexivity.
Qed.

Lemma getBase64_dimensions_witness :
  filename {| details_base64 := "data:image/png;base64,AAAA";
              details_dimensions := {| height := 150; width := 75 |};
              filename := "my-file.png" |} = "my-file.png"
  /\ exists data,
       fst (getImageData (browser (png 150 75)) "data:image/png;base64,AAAA")
       = Resolved data
       /\ data_dimensions data = {| height := 150; width := 75 |}.
Proof.
  apply (getBase64_dimensions_are_those_of_its_string
           (browser (png 150 75))
           {| name := "my-file.png"; contents := "data:image/png;base64,AAAA" |}
           {| details_base64 := "data:image/png;base64,AAAA";
              details_dimensions := {| height := 150; width := 75 |};
              filename := "my-file.png" |}).
  reflexivity.
Defined.

(** X4: when the canvas gives no 2d context, every call that has to render
    (free scaling, or a needed downscale) rejects with the package's own
    error; the canvas was created and asked for a context, nothing was drawn
    and nothing encoded. *)
Theorem scaleBase64_without_context_rejects
  (host : Host) (b : string) (o : ScaleOptions) (image : HTMLImageElement) :
  valid o = true ->
  image_event host b = ImageLoad image ->
  has_context2d host = false ->
  is_false (preserveRatio o) || scaleDown o (natural image) = true ->
  scaleBase64 host b o =
    (Return (Rejected (ReasonError no_context_message)),
     [SetImageSrc b; CreateCanvas; GetContext]).
Proof.
  intros Hv Hl Hc Hr.
  assert (Hs : exists d, sizing b o (natural image) = inr d).
  { unfold sizing. destruct (is_false (preserveRatio o)); [eauto | ].
    simpl in Hr. rewrite Hr. simpl. eauto. }
  destruct Hs as [d Hs].
  rewrite (scaleBase64_render_full host b o image d Hv Hl Hs), Hc. reflexivity.
Qed.

Lemma scaleBase64_without_context_witness :
  scaleBase64 (headless (png 200 100)) "data:image/png;base64,AAAA"
    (options (Some 50) None None)
  = (Return (Rejected (ReasonError no_context_message)),
     [SetImageSrc "data:image/png;base64,AAAA"; CreateCanvas; GetContext]).
Proof.
  apply (scaleBase64_without_context_rejects
           (headless (png 200 100)) "data:image/png;base64,AAAA"
           (options (Some 50) None None)
           {| src := "data:image/png;base64,AAAA";
              naturalHeight := 200; naturalWidth := 100 |});
    reflexivity.
Defined.

(** X5: free scaling never takes the short cut: even when the options ask
    for the natural size, the image is drawn on a canvas of the requested
    size and the result is the canvas's encoding, not the input string. *)
Theorem free_scaling_always_renders
  (host : Host) (b : string) (o : ScaleOptions) (image : HTMLImageElement) :
  valid o = true ->
  preserveRatio o = Some false ->
  image_event host b = ImageLoad image ->
  has_context2d host = true ->
  let d := {| height := or_else (opt_height o) (naturalHeight image);
              width := or_else (opt_width o) (naturalWidth image) |} in
  scaleBase64 host b o =
    (Return (Resolved {| base64 := toDataURL host (surface image d);
                         dimensions := d |}),
     [SetImageSrc b; CreateCanvas; GetContext;
      DrawImageCall (blit image d); ToDataURL]).
Proof.
  intros Hv Hp Hl Hc d.
  rewrite (scaleBase64_render_full host b o image d Hv Hl), Hc; [reflexivity | ].
  unfold sizing. rewrite Hp. reflexivity.
Qed.

Lemma free_scaling_always_renders_witness :
  fst (scaleBase64 (browser (png 200 100)) "data:image/png;base64,AAAA"
         (options (Some 200) (Some 100) (Some false)))
  = Return (Resolved {| base64 := "data:image/png;base64,scaled";
                        dimensions := {| height := 200; width := 100 |} |}).
Proof.
  apply (f_equal fst
           (free_scaling_always_renders
              (browser (png 200 100)) "data:image/png;base64,AAAA"
              (options (Some 200) (Some 100) (Some false))
              {| src := "data:image/png;base64,AAAA";
                 naturalHeight := 200; naturalWidth := 100 |}
              eq_refl eq_refl eq_refl eq_refl)).
Defined.

Lemma scaleBase64_outcome (host : Host) (b : string) (o : ScaleOptions) :
  outcome host b o (scaleBase64 host b o).
Proof.
  destruct (valid o) eqn:Hv.
  2:{ rewrite (invalid_thrown host b o Hv). constructor. exact Hv. }
  destruct (image_event host b) as [image | e | e] eqn:Hl.
  - destruct (sizing b o (natural image)) as [r | d] eqn:Hs.
    + rewrite (scaleBase64_loaded host b o image Hv Hl).
      unfold scaleBase64_then, loaded. simpl. fold (natural image).
      rewrite Hs. simpl. econstructor; eassumption.
    + rewrite (scaleBase64_render_full host b o image d Hv Hl Hs).
      destruct (has_context2d host) eqn:Hc; econstructor; eassumption.
  - unfold scaleBase64. rewrite (valid_negb o Hv).
    unfold then_, getImageData, bind, tell, ret. rewrite Hl. simpl.
    econstructor; eassumption.
  - unfold scaleBase64. rewrite (valid_negb o Hv).
    unfold then_, getImageData, bind, tell, ret. rewrite Hl. simpl.
    econstructor; eassumption.
Qed.

(** X6: whenever [scaleBase64] resolves after a [drawImage] call, that call
    drew the decoded image of the given string, whole (from (0, 0), natural
    width and height), onto the whole canvas (at (0, 0), the width and
    height that are reported), and the string reported is the encoding of
    that canvas. *)
Theorem resolved_render_draws_whole_image_at_reported_size
  (host : Host) (b : string) (o : ScaleOptions) (r : BlobData) (dr : DrawImage) :
  fst (scaleBase64 host b o) = Return (Resolved r) ->
  In (DrawImageCall dr) (snd (scaleBase64 host b o)) ->
  image_event host b = ImageLoad (drawn dr)
  /\ dr = blit (drawn dr) (dimensions r)
  /\ base64 r = toDataURL host (surface (drawn dr) (dimensions r)).
Proof.
  destruct (scaleBase64_outcome host b o); simpl; intros Hr Hin;
    try discriminate Hr;
    repeat (destruct Hin as [Hin | Hin]; try discriminate Hin);
    try contradiction.
  injection Hin as <-. injection Hr as <-. simpl. auto.
Qed.

Lemma resolved_render_witness :
  image_event (browser (png 200 100)) "data:image/png;base64,AAAA"
  = ImageLoad (drawn (blit {| src := "data:image/png;base64,AAAA";
                              naturalHeight := 200; naturalWidth := 100 |}
                           {| height := 50; width := 25 |}))
  /\ blit {| src := "data:image/png;base64,AAAA";
             naturalHeight := 200; naturalWidth := 100 |}
          {| height := 50; width := 25 |}
     = blit (drawn (blit {| src := "data:image/png;base64,AAAA";
                            naturalHeight := 200; naturalWidth := 100 |}
                         {| height := 50; width := 25 |}))
            (dimensions {| base64 := "data:image/png;base64,scaled";
                           dimensions := {| height := 50; width := 25 |} |})
  /\ base64 {| base64 := "data:image/png;base64,scaled";
               dimensions := {| height := 50; width := 25 |} |}
     = toDataURL (browser (png 200 100))
         (surface (drawn (blit {| src := "data:image/png;base64,AAAA";
                                  naturalHeight := 200; naturalWidth := 100 |}
                               {| height := 50; width := 25 |}))
                  (dimensions {| base64 := "data:image/png;base64,scaled";
                                 dimensions := {| height := 50; width := 25 |} |})).
Proof.
  apply (resolved_render_draws_whole_image_at_reported_size
           (browser (png 200 100)) "data:image/png;base64,AAAA"
           (options (Some 50) (Some 50) None)
           {| base64 := "data:image/png;base64,scaled";
              dimensions := {| height := 50; width := 25 |} |}
           (blit {| src := "data:image/png;base64,AAAA";
                    naturalHeight := 200; naturalWidth := 100 |}
                 {| height := 50; width := 25 |})).
  - reflexivity.
  - simpl. right. right. right. left. reflexivity.
Defined.

(** X7: a call of [scaleBase64] asks for at most one decode, of the string
    it was given and of nothing else, and never reads a file. *)
Theorem scaleBase64_decodes_its_argument_at_most_once
  (host : Host) (b : string) (o : ScaleOptions) :
  (List.length (filter is_decode (snd (scaleBase64 host b o))) <= 1)%nat
  /\ (forall s, In (SetImageSrc s) (snd (scaleBase64 host b o)) -> s = b)
  /\ filter is_read (snd (scaleBase64 host b o)) = [].
Proof.
  destruct (scaleBase64_outcome host b o); simpl;
    (split; [lia | split; [ | reflexivity]]);
    intros s Hin;
    repeat (destruct Hin as [Hin | Hin]; try discriminate Hin);
    try contradiction; injection Hin as <-; reflexivity.
Qed.

(** X8: a decode that ends in the image's [error] event settles nothing:
    the promises of [getImageData], of [getBase64] on a file with that
    content, and of [scaleBase64] all stay pending, after the one decode
    attempt. *)
Theorem image_error_event_leaves_promises_pending
  (host : Host) (b : string) (event : Event) :
  image_event host b = ImageError event ->
  getImageData host b = (Pending, [SetImageSrc b])
  /\ (forall file : File,
         reader_event host file = ReaderLoad b ->
         getBase64 host file = (Pending, [ReadAsDataURL file; SetImageSrc b]))
  /\ (forall o : ScaleOptions,
         valid o = true ->
         scaleBase64 host b o = (Return Pending, [SetImageSrc b])).
Proof.
  intros He. split; [ | split].
  - unfold getImageData, bind, tell, ret. rewrite He. reflexivity.
  - intros file Hr. unfold getBase64, then_, getImageData, bind, tell, ret.
    rewrite Hr, He. reflexivity.
  - intros o Hv. unfold scaleBase64. rewrite (valid_negb o Hv).
    unfold then_, getImageData, bind, tell, ret. rewrite He. reflexivity.
Qed.

Lemma image_error_event_witness :
  getImageData broken "data:image/png;base64,!!!!"
  = (Pending, [SetImageSrc "data:image/png;base64,!!!!"]).
Proof.
  apply (image_error_event_leaves_promises_pending
           broken "data:image/png;base64,!!!!"
           {| event_type := "error";
              event_target := "data:image/png;base64,!!!!" |}).
  reflexivity.
Defined.

(** X9: a constraint that is not positive still counts in the downscale
    test when it is non-zero; when the test holds and no constraint is
    positive, the factor stays at its initial 1 and the image is rendered
    again at [(H * 1, W * 1)]. *)
Theorem no_positive_constraint_renders_at_factor_one
  (host : Host) (b : string) (o : ScaleOptions) (image : HTMLImageElement) :
  is_false (preserveRatio o) = false ->
  image_event host b = ImageLoad image ->
  has_context2d host = true ->
  scaleDown o (natural image) = true ->
  Policy.positive (opt_height o) = false ->
  Policy.positive (opt_width o) = false ->
  percentage o (natural image) = 1
  /\ dims_of (scaleBase64 host b o)
     = Some (naturalHeight image * 1, naturalWidth image * 1)
  /\ In ToDataURL (snd (scaleBase64 host b o)).
Proof.
  intros Hp Hl Hc Hs Hh Hw.
  assert (Hone : percentage o (natural image) = 1).
  { unfold percentage. rewrite !chosen_positive, Hh, Hw. reflexivity. }
  assert (Hz : sizing b o (natural image)
               = inr {| height := naturalHeight image * 1;
                        width := naturalWidth image * 1 |}).
  { unfold sizing. rewrite Hp, Hs, Hone. reflexivity. }
  split; [exact Hone | ].
  rewrite (scaleBase64_render_full host b o image _ (scaleDown_valid o _ Hs) Hl Hz), Hc.
  split; [reflexivity | ]. simpl. auto 6.
Qed.

Lemma no_positive_constraint_witness :
  percentage (options (Some (-5)) None None)
    (natural {| src := "data:image/png;base64,AAAA";
                naturalHeight := 200; naturalWidth := 100 |}) = 1
  /\ dims_of (scaleBase64 (browser (png 200 100)) "data:image/png;base64,AAAA"
                (options (Some (-5)) None None))
     = Some (200 * 1, 100 * 1)
  /\ In ToDataURL
        (snd (scaleBase64 (browser (png 200 100)) "data:image/png;base64,AAAA"
                (options (Some (-5)) None None))).
Proof.
  apply (no_positive_constraint_renders_at_factor_one
           (browser (png 200 100)) "data:image/png;base64,AAAA"
           (options (Some (-5)) None None)
           {| src := "data:image/png;base64,AAAA";
              naturalHeight := 200; naturalWidth := 100 |});
    reflexivity.
Defined.

(** X10: with at least one of the two options a number, [scaleBase64]
    throws nothing: it returns a promise and its first host call is the
    decode of the given string, so every later failure comes through the
    promise. *)
Theorem valid_options_never_throw
  (host : Host) (b : string) (o : ScaleOptions) :
  valid o = true ->
  exists p rest, scaleBase64 host b o = (Return p, SetImageSrc b :: rest).
Proof.
  intros Hv. destruct (scaleBase64_outcome host b o); eauto; congruence.
Qed.

Lemma valid_options_never_throw_witness :
  exists p rest,
    scaleBase64 (headless (png 200 100)) "data:image/png;base64,AAAA"
      (options None (Some nan) (Some false))
    = (Return p, SetImageSrc "data:image/png;base64,AAAA" :: rest).
Proof.
  apply (valid_options_never_throw
           (headless (png 200 100)) "data:image/png;base64,AAAA"
           (options None (Some nan) (Some false))).
  reflexivity.
Defined.

(** X11: the string is handed back without canvas work only in
    ratio-preserving mode, with the natural dimensions, and only when no
    non-zero constraint is below the natural size on its axis. *)
Theorem original_returned_only_when_nothing_exceeds
  (host : Host) (b : string) (o : ScaleOptions) (r : BlobData) :
  scaleBase64 host b o = (Return (Resolved r), [SetImageSrc b]) ->
  is_false (preserveRatio o) = false
  /\ exists image,
       image_event host b = ImageLoad image
       /\ r = {| base64 := b; dimensions := natural image |}
       /\ (forall x, opt_height o = Some x -> truthy x = true ->
                     (x <? naturalHeight image) = false)
       /\ (forall x, opt_width o = Some x -> truthy x = true ->
                     (x <? naturalWidth image) = false).
Proof.
  intros Hs.
  destruct (short_circuit_inv host b o r Hs) as (image & _ & Hl & Hp & Hd & ->).
  split; [exact Hp | ]. exists image. split; [exact Hl | ].
  split; [reflexivity | ].
  unfold scaleDown, and_then, gt, natural in Hd. simpl in Hd.
  apply orb_false_iff in Hd. destruct Hd as [Hh Hw].
  split; intros x Hx Ht.
  - rewrite Hx, Ht in Hh. exact Hh.
  - rewrite Hx, Ht in Hw. exact Hw.
Qed.

Lemma original_returned_witness :
  is_false (preserveRatio (options (Some 200) (Some 0) None)) = false
  /\ exists image,
       image_event (browser (png 200 100)) "data:image/png;base64,AAAA"
       = ImageLoad image
       /\ {| base64 := "data:image/png;base64,AAAA";
             dimensions := {| height := 200; width := 100 |} |}
          = {| base64 := "data:image/png;base64,AAAA";
               dimensions := natural image |}
       /\ (forall x, opt_height (options (Some 200) (Some 0) None) = Some x ->
                     truthy x = true -> (x <? naturalHeight image) = false)
       /\ (forall x, opt_width (options (Some 200) (Some 0) None) = Some x ->
                     truthy x = true -> (x <? naturalWidth image) = false).
Proof.
  apply (original_returned_only_when_nothing_exceeds
           (browser (png 200 100)) "data:image/png;base64,AAAA"
           (options (Some 200) (Some 0) None)
           {| base64 := "data:image/png;base64,AAAA";
              dimensions := {| height := 200; width := 100 |} |}).
  reflexivity.
Defined.

Lemma getBase64_inv (host : Host) (file : File) (details : BlobDetails) :
  fst (getBase64 host file) = Resolved details ->
  exists b image,
    reader_event host file = ReaderLoad b
    /\ image_event host b = ImageLoad image
    /\ details = {| details_base64 := b;
                    details_dimensions := natural image;
                    filename := name file |}.
Proof.
  unfold getBase64, then_, getImageData, bind, tell, ret.
  destruct (reader_event host file) as [b | e | e] eqn:Hr; simpl;
    try discriminate.
  destruct (image_event host b) as [image | e | e] eqn:Hl; simpl;
    try discriminate.
  intros H. injection H as <-. exists b, image. auto.
Qed.

(** X12: what [getBase64] resolved with can be passed on to [scaleBase64]:
    in ratio-preserving mode, with no given constraint below the reported
    dimensions, the call hands back the reported string and the reported
    dimensions, and the decode is its only host call. *)
Theorem getBase64_then_scaleBase64_within_bounds
  (host : Host) (file : File) (details : BlobDetails) (o : ScaleOptions) :
  fst (getBase64 host file) = Resolved details ->
  valid o = true ->
  is_false (preserveRatio o) = false ->
  Policy.satisfied (opt_height o) (height (details_dimensions details)) = true ->
  Policy.satisfied (opt_width o) (width (details_dimensions details)) = true ->
  scaleBase64 host (details_base64 details) o =
    (Return (Resolved {| base64 := details_base64 details;
                         dimensions := details_dimensions details |}),
     [SetImageSrc (details_base64 details)]).
Proof.
  intros Hg Hv Hp Hh Hw.
  destruct (getBase64_inv host file details Hg) as (b & image & _ & Hl & ->).
  simpl in *. apply (scaleBase64_short host b o image Hv Hl Hp).
  unfold scaleDown. simpl.
  rewrite (satisfied_and_then _ _ Hh), (satisfied_and_then _ _ Hw). reflexivity.
Qed.

Lemma getBase64_then_scaleBase64_witness :
  scaleBase64 (browser (png 150 75)) "data:image/png;base64,AAAA"
    (options (Some 400) (Some 400) (Some true))
  = (Return (Resolved {| base64 := "data:image/png;base64,AAAA";
                         dimensions := {| height := 150; width := 75 |} |}),
     [SetImageSrc "data:image/png;base64,AAAA"]).
Proof.
  apply (getBase64_then_scaleBase64_within_bounds
           (browser (png 150 75))
           {| name := "my-file.png"; contents := "data:image/png;base64,AAAA" |}
           {| details_base64 := "data:image/png;base64,AAAA";
              details_dimensions := {| height := 150; width := 75 |};
              filename := "my-file.png" |}
           (options (Some 400) (Some 400) (Some true)));
    reflexivity.
Defined.

Lemma earlier_positive (a : option number) :
  gt (Earlier.to_number a) 0 = Policy.positive a.
Proof. destruct a; reflexivity. Qed.

Lemma earlier_chosen (a : option number) :
  Policy.positive a = true -> Earlier.to_number a = or_else a 0.
Proof.
  destruct a as [x | ]; simpl; [ | discriminate].
  intros Hp. symmetry. apply (chosen_value (Some x) x Hp). reflexivity.
Qed.

(** X13: introducing [chosenHeight = options.height || 0] and
    [chosenWidth = options.width || 0] changed nothing: for all options and
    natural dimensions the factor, and with it the sizing, is that of the
    earlier revision, which compared and divided the options themselves. *)
Theorem chosen_constraints_keep_earlier_sizing
  (b : string) (o : ScaleOptions) (d : Dimensions) :
  Earlier.percentage o d = percentage o d
  /\ Earlier.sizing b o d = sizing b o d.
Proof.
  assert (Hp : Earlier.percentage o d = percentage o d).
  { unfold Earlier.percentage, percentage.
    rewrite !earlier_positive, !chosen_positive.
    destruct (Policy.positive (opt_height o)) eqn:Ph,
             (Policy.positive (opt_width o)) eqn:Pw; simpl;
      rewrite ?(earlier_chosen _ Ph), ?(earlier_chosen _ Pw); reflexivity. }
  split; [exact Hp | ].
  unfold Earlier.sizing, sizing. rewrite Hp. reflexivity.
Qed.

Lemma positive_truthy (x : number) : (0 <? x) = true -> truthy x = true.
Proof.
  intros Hp. destruct (truthy x) eqn:E; [reflexivity | ].
  rewrite (FloatOrder.falsy_not_positive x E) in Hp. discriminate Hp.
Qed.

(** X14: for an image taller than wide, with both constraints positive and
    the height constraint below the natural height, the result is
    [(H * (h / H), W * (h / H))] whatever the width constraint is: the width
    constraint plays no part. *)
Theorem taller_image_ignores_width_constraint
  (host : Host) (b : string) (h w : number) (p : option bool)
  (image : HTMLImageElement) :
  let H := naturalHeight image in
  let W := naturalWidth image in
  is_false p = false ->
  image_event host b = ImageLoad image ->
  has_context2d host = true ->
  (W <? H) = true ->
  (0 <? h) = true ->
  (0 <? w) = true ->
  (h <? H) = true ->
  dims_of (scaleBase64 host b (options (Some h) (Some w) p))
  = Some (H * (h / H), W * (h / H)).
Proof.
  intros H W Hp Hl Hc HWH Hh Hw HhH.
  apply (scaleBase64_rendered host b (options (Some h) (Some w) p) image
           {| height := H * (h / H); width := W * (h / H) |});
    try assumption; try reflexivity.
  unfold sizing, scaleDown, percentage, largerDimension, and_then, or_else, gt,
    natural. simpl. fold H W.
  rewrite Hp, (positive_truthy h Hh), (positive_truthy w Hw), HhH, Hh, Hw, HWH.
  reflexivity.
Qed.

Lemma taller_image_ignores_width_witness :
  dims_of (scaleBase64 (browser (png 200 100)) "data:image/png;base64,AAAA"
             (options (Some 100) (Some 10) None))
  = Some (200 * (100 / 200), 100 * (100 / 200)).
Proof.
  apply (taller_image_ignores_width_constraint
           (browser (png 200 100)) "data:image/png;base64,AAAA" 100 10 None
           {| src := "data:image/png;base64,AAAA";
              naturalHeight := 200; naturalWidth := 100 |});
    reflexivity.
Defined.

(** X15: for an image that is not taller than wide, with both constraints
    positive and the width constraint below the natural width, the result
    is [(H * (w / W), W * (w / W))] whatever the height constraint is: the
    height constraint plays no part. *)
Theorem wider_image_ignores_height_constraint
  (host : Host) (b : string) (h w : number) (p : option bool)
  (image : HTMLImageElement) :
  let H := naturalHeight image in
  let W := naturalWidth image in
  is_false p = false ->
  image_event host b = ImageLoad image ->
  has_context2d host = true ->
  (W <? H) = false ->
  (0 <? h) = true ->
  (0 <? w) = true ->
  (w <? W) = true ->
  dims_of (scaleBase64 host b (options (Some h) (Some w) p))
  = Some (H * (w / W), W * (w / W)).
Proof.
  intros H W Hp Hl Hc HWH Hh Hw HwW.
  apply (scaleBase64_rendered host b (options (Some h) (Some w) p) image
           {| height := H * (w / W); width := W * (w / W) |});
    try assumption; try reflexivity.
  unfold sizing, scaleDown, percentage, largerDimension, and_then, or_else, gt,
    natural. simpl. fold H W.
  rewrite Hp, (positive_truthy h Hh), (positive_truthy w Hw), HwW, Hh, Hw, HWH.
  rewrite orb_true_r. reflexivity.
Qed.

Lemma wider_image_ignores_height_witness :
  dims_of (scaleBase64 (browser (png 100 200)) "data:image/png;base64,AAAA"
             (options (Some 10) (Some 100) None))
  = Some (100 * (100 / 200), 200 * (100 / 200)).
Proof.
  apply (wider_image_ignores_height_constraint
           (browser (png 100 200)) "data:image/png;base64,AAAA" 10 100 None
           {| src := "data:image/png;base64,AAAA";
              naturalHeight := 100; naturalWidth := 200 |});
    reflexivity.
Defined.
